(** * lltypes: type descriptors and their ctypes / dtype translations

    A shallow embedding of [lltypes/core.py]: the descriptor classes
    ([Struct], [Field], [Enum], [Union], [Vector], [Pointer], [Sequence],
    [VariableString], [TerminatedString]), the endianness/format
    constructors, the string helpers and the three array builders, with
    the translation methods [to_llvm], [to_ctypes] and [to_dtype].

    Python exceptions are values of [exn]; a method that may raise returns
    a [result].  The descriptor attributes carry the types of the data
    model (names and format codes are strings, lengths are integers,
    children are descriptors).  What ctypes decides by version and
    platform, the bound on array lengths and sizes and the member names
    a class accepts, is a [Runtime] that [to_ctypes] takes as an
    argument. *)

From stdpp Require Import base option list strings gmap.
From Stdlib Require Import ZArith Lia.

Local Open Scope string_scope.
Local Open Scope Z_scope.

(** ** Descriptor instances

    One constructor per class, holding the attributes that the class's
    [__init__] stores on [self].  [Vector.__init__(self, width, options)]
    stores [options] only, and [Pointer] has no [name] attribute of its
    own (it is a property, see [name] below). *)

#[warnings="-register-all"]
Inductive LLType : Type :=
| Struct (name : string) (fields : list LLType)
| Field (name : string) (endianness : string) (format : string)
| EnumObj (name : string) (idx : LLType)
| Union (name : string) (tag : LLType) (options : list LLType)
| VectorObj (options : list LLType)
| Pointer (ty : LLType)
| Sequence (name : string) (ty : LLType) (length : Z)
| VariableString (name : string) (ptr : LLType) (length : LLType)
| TerminatedString (name : string) (terminator : string).

(** Structural induction that also reaches the descriptors stored in the
    [fields] and [options] lists. *)
Section LLType_induction.
Variable P : LLType -> Prop.
Hypothesis HStruct : forall name fields,
    Forall P fields -> P (Struct name fields).
Hypothesis HField : forall name endianness format,
    P (Field name endianness format).
Hypothesis HEnum : forall name idx, P idx -> P (EnumObj name idx).
Hypothesis HUnion : forall name tag options,
    P tag -> Forall P options -> P (Union name tag options).
Hypothesis HVector : forall options,
    Forall P options -> P (VectorObj options).
Hypothesis HPointer : forall ty, P ty -> P (Pointer ty).
Hypothesis HSequence : forall name ty length,
    P ty -> P (Sequence name ty length).
Hypothesis HVariableString : forall name ptr length,
    P ptr -> P length -> P (VariableString name ptr length).
Hypothesis HTerminatedString : forall name terminator,
    P (TerminatedString name terminator).

Fixpoint LLType_nested_ind (t : LLType) : P t :=
  let all := fix all (ts : list LLType) : Forall P ts :=
      match ts with
      | [] => @ListDef.Forall_nil _ P
      | t' :: ts' =>
          @ListDef.Forall_cons _ P t' ts' (LLType_nested_ind t') (all ts')
      end in
  match t with
  | Struct name fields => HStruct name fields (all fields)
  | Field name endianness format => HField name endianness format
  | EnumObj name idx => HEnum name idx (LLType_nested_ind idx)
  | Union name tag options =>
      HUnion name tag options (LLType_nested_ind tag) (all options)
  | VectorObj options => HVector options (all options)
  | Pointer ty => HPointer ty (LLType_nested_ind ty)
  | Sequence name ty length => HSequence name ty length (LLType_nested_ind ty)
  | VariableString name ptr length =>
      HVariableString name ptr length
        (LLType_nested_ind ptr) (LLType_nested_ind length)
  | TerminatedString name terminator => HTerminatedString name terminator
  end.
End LLType_induction.

(** ** Exceptions and results *)

(** The three exception classes of the module carry the descriptor they
    were raised with ([raise NoCtypeMapping(self)]); the others are the
    built-in exceptions the code can run into.  [Crash] is not an
    exception: it stands for the death of the interpreter inside ctypes,
    which ends the evaluation as an exception that nothing catches. *)
Inductive exn : Type :=
| NoLlvmMapping (self : LLType)
| NoCtypeMapping (self : LLType)
| NoDtypeMapping (self : LLType)
| KeyError (key : string)
| AttributeError (attr : string)
| TypeError
| ValueError
| OverflowError
| Crash.

Inductive result (A : Type) : Type :=
| Ok (a : A)
| Raise (e : exn).

Arguments Ok {A} a.
Arguments Raise {A} e.

Definition bind {A B : Type} (m : result A) (k : A -> result B) : result B :=
  match m with
  | Ok a => k a
  | Raise e => Raise e
  end.

Notation "'do' x <- m ; k" := (bind m (fun x => k))
  (at level 10, x name, m at level 100, k at level 200).

(** ** The ctypes side *)

(** The fundamental ctypes data types a format code can stand for. *)
Inductive c_simple : Type :=
| c_bool | c_char
| c_byte | c_ubyte | c_short | c_ushort
| c_int | c_uint | c_long | c_ulong
| c_longlong | c_ulonglong
| c_float | c_double.

(** What [to_ctypes] builds: a fundamental type, a [ctypes.Structure]
    subclass with its [__name__] and its [_fields_] list, a
    [ctypes.POINTER] type, or an array type [element * length]. *)
#[warnings="-register-all"]
Inductive ctype : Type :=
| CSimple (s : c_simple)
| CStructure (name : string) (fields_ : list (string * ctype))
| CPointer (pointee : ctype)
| CArray (element : ctype) (length : Z).

(** [ctypes.POINTER(c)]. *)
Definition POINTER (c : ctype) : result ctype := Ok (CPointer c).

(** How ctypes can refuse a class or an array. *)
Inductive runtime_failure : Type :=
| RTypeError
| RAttributeError (attr : string)
| RValueError
| ROverflowError
| RCrash.

Definition runtime_exn (f : runtime_failure) : exn :=
  match f with
  | RTypeError => TypeError
  | RAttributeError attr => AttributeError attr
  | RValueError => ValueError
  | ROverflowError => OverflowError
  | RCrash => Crash
  end.

(** What depends on the version of CPython and on the platform: the
    largest [Py_ssize_t]; the size check that ctypes makes on an array
    type of a given element and length; and the outcome of the statement
    [class struct(ctypes.Structure): _fields_ = fields_], where ctypes
    binds every member name as an attribute of the new class and refuses
    some names ([None] when the class is created). *)
Record Runtime : Type := {
  PY_SSIZE_T_MAX : Z;
  array_too_large : ctype -> Z -> bool;
  Structure_class : list (string * ctype) -> option runtime_failure
}.

(** [c * length]: the length is converted to a [Py_ssize_t], with an
    [OverflowError] when it does not fit; a negative length is a
    [ValueError]; an array whose size does not fit is an
    [OverflowError]. *)
Definition array_of (rt : Runtime) (c : ctype) (length : Z) : result ctype :=
  if (length <? - PY_SSIZE_T_MAX rt - 1) || (PY_SSIZE_T_MAX rt <? length)
  then Raise OverflowError
  else if length <? 0 then Raise ValueError
  else if array_too_large rt c length then Raise OverflowError
  else Ok (CArray c length).

(** The class statement with a given [_fields_] list. *)
Definition class_statement (rt : Runtime) (fields_ : list (string * ctype))
  : result unit :=
  match Structure_class rt fields_ with
  | Some f => Raise (runtime_exn f)
  | None => Ok tt
  end.

(** A string with a NUL character. *)
Fixpoint has_nul (s : string) : bool :=
  match s with
  | EmptyString => false
  | String a s' => Ascii.eqb a Ascii.zero || has_nul s'
  end.

(** [struct.__name__ = n]: a class name must not contain a NUL
    character. *)
Definition set_class_name (n : string) : result unit :=
  if has_nul n then Raise ValueError else Ok tt.

(** ** Attribute access *)

(** [t.name]: an instance attribute for most classes, the property
    [Pointer.name] that returns [self.ty.name], and absent on [Vector]. *)
Fixpoint name (t : LLType) : result string :=
  match t with
  | Struct n _ => Ok n
  | Field n _ _ => Ok n
  | EnumObj n _ => Ok n
  | Union n _ _ => Ok n
  | VectorObj _ => Raise (AttributeError "name")
  | Pointer ty => name ty
  | Sequence n _ _ => Ok n
  | VariableString n _ _ => Ok n
  | TerminatedString n _ => Ok n
  end.

(** Lookup of a data attribute on a [Field] instance: [__init__] stores
    exactly [name], [endianness] and [format], and the class defines no
    other data attribute. *)
Definition Field_getattr (name endianness format : string) (attr : string)
  : result string :=
  if String.eqb attr "name" then Ok name
  else if String.eqb attr "endianness" then Ok endianness
  else if String.eqb attr "format" then Ok format
  else Raise (AttributeError attr).

(** ** The base class [Type] *)

Definition Type_to_llvm (self : LLType) : result unit :=
  Raise (NoLlvmMapping self).

Definition Type_to_ctypes (self : LLType) : result ctype :=
  Raise (NoCtypeMapping self).

(** A numpy dtype, identified by the string it was built from. *)
Inductive dtype : Type :=
| Dtype (descr : string).

Definition Type_to_dtype (self : LLType) : result dtype :=
  Raise (NoDtypeMapping self).

(** No class overrides [to_llvm]. *)
Definition to_llvm (t : LLType) : result unit := Type_to_llvm t.

(** [to_dtype]: overridden by [Field] only, whose body reads
    [self.endianess] (sic) before [self.format]. *)
Definition to_dtype (t : LLType) : result dtype :=
  match t with
  | Field n e f =>
      do e' <- Field_getattr n e f "endianess";
      do f' <- Field_getattr n e f "format";
      Ok (Dtype (e' ++ f'))
  | _ => Type_to_dtype t
  end.

(** ** [to_ctypes] *)

Section FormatTable.

(** The runtime the module is run on. *)
Variable rt : Runtime.

(** [codes.format_ctypes], the dictionary from format codes to ctypes
    types of the [codes] module. *)
Variable format_ctypes : gmap string c_simple.

(** [codes.format_ctypes[key]]. *)
Definition format_ctypes_getitem (key : string) : result ctype :=
  match format_ctypes !! key with
  | Some c => Ok (CSimple c)
  | None => Raise (KeyError key)
  end.

(** The comprehension
    [[(field.name, field.to_ctypes()) for field in self.fields]]:
    fields are visited left to right, the name is read before the
    field is compiled, and the first exception ends the evaluation. *)
Definition fields_comprehension (compile : LLType -> result ctype)
  : list LLType -> result (list (string * ctype)) :=
  fix comprehension (fields : list LLType) :=
    match fields with
    | [] => Ok []
    | field :: fields' =>
        do field_name <- name field;
        do c <- compile field;
        do rest <- comprehension fields';
        Ok ((field_name, c) :: rest)
    end.

(** [to_ctypes], by class.  [Struct] evaluates the comprehension,
    runs the class statement with that [_fields_] list, then assigns
    [self.name] to the class's [__name__] and returns the class; [Field]
    subscripts the format table; [Pointer] and [Sequence] compile
    [self.ty] first; every other class inherits [Type.to_ctypes]. *)
Fixpoint to_ctypes (t : LLType) : result ctype :=
  match t with
  | Struct n fields =>
      do fields_ <- fields_comprehension to_ctypes fields;
      do created <- class_statement rt fields_;
      do named <- set_class_name n;
      Ok (CStructure n fields_)
  | Field _ _ format => format_ctypes_getitem format
  | Pointer ty => do c <- to_ctypes ty; POINTER c
  | Sequence _ ty length => do c <- to_ctypes ty; array_of rt c length
  | EnumObj _ _ | Union _ _ _ | VectorObj _
  | VariableString _ _ _ | TerminatedString _ _ => Type_to_ctypes t
  end.

End FormatTable.

(** ** Endianness/format constructors *)

(** *** Big endian *)
Definition UBInt8 (name : string) : LLType := Field name ">" "B".
Definition UBInt16 (name : string) : LLType := Field name ">" "H".
Definition UBInt32 (name : string) : LLType := Field name ">" "L".
Definition UBInt64 (name : string) : LLType := Field name ">" "Q".

Definition SBInt8 (name : string) : LLType := Field name ">" "b".
Definition SBInt16 (name : string) : LLType := Field name ">" "h".
Definition SBInt32 (name : string) : LLType := Field name ">" "l".
Definition SBInt64 (name : string) : LLType := Field name ">" "q".

(** *** Little endian *)
Definition ULInt8 (name : string) : LLType := Field name "<" "B".
Definition ULInt16 (name : string) : LLType := Field name "<" "H".
Definition ULInt32 (name : string) : LLType := Field name "<" "L".
Definition ULInt64 (name : string) : LLType := Field name "<" "Q".

Definition SLInt8 (name : string) : LLType := Field name "<" "b".
Definition SLInt16 (name : string) : LLType := Field name "<" "h".
Definition SLInt32 (name : string) : LLType := Field name "<" "l".
Definition SLInt64 (name : string) : LLType := Field name "<" "q".

(** *** Native endian *)
Definition UNInt8 (name : string) : LLType := Field name "=" "B".
Definition UNInt16 (name : string) : LLType := Field name "=" "H".
Definition UNInt32 (name : string) : LLType := Field name "=" "L".
Definition UNInt64 (name : string) : LLType := Field name "=" "Q".

Definition SNInt8 (name : string) : LLType := Field name "=" "b".
Definition SNInt16 (name : string) : LLType := Field name "=" "h".
Definition SNInt32 (name : string) : LLType := Field name "=" "l".
Definition SNInt64 (name : string) : LLType := Field name "=" "q".

(** *** IEEE floating point *)
Definition BFloat32 (name : string) : LLType := Field name ">" "f".
Definition LFloat32 (name : string) : LLType := Field name "<" "f".
Definition NFloat32 (name : string) : LLType := Field name "=" "f".

Definition BFloat64 (name : string) : LLType := Field name ">" "d".
Definition LFloat64 (name : string) : LLType := Field name "<" "d".
Definition NFloat64 (name : string) : LLType := Field name "=" "d".

(** *** Boolean and aliases *)
Definition Bool (name : string) : LLType := Field name "=" "?".

Definition Byte : string -> LLType := UBInt8.
Definition SChar : string -> LLType := SLInt8.
Definition UChar : string -> LLType := ULInt8.
Definition Char : string -> LLType := SChar.

(** ** Calling the classes *)

(** The Python objects that the module passes as arguments. *)
Inductive value : Type :=
| VStr (s : string)
| VInt (n : Z)
| VNode (t : LLType)
| VFunc (f : string -> LLType).

(** [Enum(name, **kw)] with one positional argument and the keyword
    arguments [kw]: a keyword called [self] or [name] collides with a
    parameter that is already bound and the call raises [TypeError];
    the other keywords are collected and dropped, and [idx] is
    [Byte(name)]. *)
Definition Enum (name : string) (kw : gmap string value) : result LLType :=
  if bool_decide (is_Some (kw !! "self") \/ is_Some (kw !! "name"))
  then Raise TypeError
  else Ok (EnumObj name (Byte name)).

(** [Vector(width, options)]: [width] is dropped. *)
Definition Vector (width : Z) (options : list LLType) : LLType :=
  VectorObj options.

(** Binding of positional arguments to the parameters that follow [self]:
    none of the [__init__] signatures called below has defaults or a star
    parameter, so the call raises [TypeError] unless there are exactly as
    many arguments as parameters. *)
Definition bind_positional (params : list string) (args : list value)
  : result (list (string * value)) :=
  if Nat.eqb (List.length args) (List.length params)
  then Ok (zip params args)
  else Raise TypeError.

(** [Sequence.__init__(self, name, ty, length)] on bound arguments.  The
    instance is a [Sequence] descriptor when the three objects have the
    attributes' types; [None] stands for an instance holding objects of
    other types, which [LLType] does not describe. *)
Definition Sequence_init (bound : list (string * value)) : option LLType :=
  match bound with
  | [(_, VStr name); (_, VNode ty); (_, VInt length)] =>
      Some (Sequence name ty length)
  | _ => None
  end.

(** [TerminatedString.__init__(self, name, terminator)] on bound
    arguments, with the same convention. *)
Definition TerminatedString_init (bound : list (string * value))
  : option LLType :=
  match bound with
  | [(_, VStr name); (_, VStr terminator)] =>
      Some (TerminatedString name terminator)
  | _ => None
  end.

(** Calls of [Sequence] and of [TerminatedString] on a list of
    positional arguments. *)
Definition Sequence_call (args : list value) : result (option LLType) :=
  do bound <- bind_positional ["name"; "ty"; "length"] args;
  Ok (Sequence_init bound).

Definition TerminatedString_call (args : list value)
  : result (option LLType) :=
  do bound <- bind_positional ["name"; "terminator"] args;
  Ok (TerminatedString_init bound).

(** ** Strings *)

(** [FixedString(length)] is [Sequence(Char, length)]: two positional
    arguments, the function object [Char] and the length. *)
Definition FixedString (length : Z) : result (option LLType) :=
  Sequence_call [VFunc Char; VInt length].

(** [CString()] is [TerminatedString('0x00')]: one positional argument,
    the four-character string. *)
Definition CString : result (option LLType) :=
  TerminatedString_call [VStr "0x00"].

(** ** LLArrays *)

Definition Array_C (name : string) (ty : string -> LLType) (nd : Z) : LLType :=
  Struct "Array_C"
    [ Pointer (ty "data");
      Sequence "shape" (UNInt8 EmptyString) nd ].

Definition Array_F (name : string) (ty : string -> LLType) (nd : Z) : LLType :=
  Struct "Array_F"
    [ Pointer (ty "data");
      Sequence "shape" (UNInt8 EmptyString) nd ].

Definition Array_S (name : string) (ty : string -> LLType) (nd : Z) : LLType :=
  Struct "Array_S"
    [ Pointer (ty "data");
      Sequence "shape" (UNInt8 EmptyString) nd;
      Sequence "stride" (UNInt8 EmptyString) nd ].

(** ** The integer constructors as a family *)

Inductive signedness : Type := Unsigned | Signed.
Inductive byteorder : Type := Big | Little | Native.
Inductive bitwidth : Type := W8 | W16 | W32 | W64.

Definition all_signedness : list signedness := [Unsigned; Signed].
Definition all_byteorder : list byteorder := [Big; Little; Native].
Definition all_bitwidth : list bitwidth := [W8; W16; W32; W64].

(** The integer constructors of the module under their names, in source
    order. *)
Definition int_constructors : list (string * (string -> LLType)) :=
  [ ("UBInt8", UBInt8); ("UBInt16", UBInt16);
    ("UBInt32", UBInt32); ("UBInt64", UBInt64);
    ("SBInt8", SBInt8); ("SBInt16", SBInt16);
    ("SBInt32", SBInt32); ("SBInt64", SBInt64);
    ("ULInt8", ULInt8); ("ULInt16", ULInt16);
    ("ULInt32", ULInt32); ("ULInt64", ULInt64);
    ("SLInt8", SLInt8); ("SLInt16", SLInt16);
    ("SLInt32", SLInt32); ("SLInt64", SLInt64);
    ("UNInt8", UNInt8); ("UNInt16", UNInt16);
    ("UNInt32", UNInt32); ("UNInt64", UNInt64);
    ("SNInt8", SNInt8); ("SNInt16", SNInt16);
    ("SNInt32", SNInt32); ("SNInt64", SNInt64) ].

(** The name the module gives to the constructor of a triple: [U] or [S],
    then [B], [L] or [N], then [Int] and the width. *)
Definition constructor_name (s : signedness) (e : byteorder) (w : bitwidth)
  : string :=
  (match s with Unsigned => "U" | Signed => "S" end)
  ++ (match e with Big => "B" | Little => "L" | Native => "N" end)
  ++ "Int"
  ++ (match w with W8 => "8" | W16 => "16" | W32 => "32" | W64 => "64" end).

(** The constructors that the module defines under a given name. *)
Definition constructors_named (n : string) : list (string -> LLType) :=
  map snd (filter (fun entry => fst entry = n) int_constructors).

(** The [(endianness, format)] pair of a [Field]. *)
Definition endianness_format (t : LLType) : option (string * string) :=
  match t with
  | Field _ e f => Some (e, f)
  | _ => None
  end.

(** The [fields] attribute of a [Struct]. *)
Definition fields (t : LLType) : option (list LLType) :=
  match t with
  | Struct _ fs => Some fs
  | _ => None
  end.

(** ** An example format table

    The codes of the constructors above with the ctypes types of their
    widths; it serves to run [to_ctypes] on concrete descriptors. *)
Definition example_format_ctypes : gmap string c_simple :=
  list_to_map
    [ ("b", c_byte); ("B", c_ubyte); ("h", c_short); ("H", c_ushort);
      ("l", c_int); ("L", c_uint); ("q", c_longlong); ("Q", c_ulonglong);
      ("f", c_float); ("d", c_double); ("?", c_bool) ].

(** ** [__repr__] *)

(** [self.__class__.__name__]. *)
Definition class_name (t : LLType) : string :=
  match t with
  | Struct _ _ => "Struct"
  | Field _ _ _ => "Field"
  | EnumObj _ _ => "Enum"
  | Union _ _ _ => "Union"
  | VectorObj _ => "Vector"
  | Pointer _ => "Pointer"
  | Sequence _ _ _ => "Sequence"
  | VariableString _ _ _ => "VariableString"
  | TerminatedString _ _ => "TerminatedString"
  end.

Section Repr.

(** The conversion [%r] of a [str]: Python's [repr], with its quoting
    and escaping rules. *)
Variable repr_str : string -> string.

(** [Type.__repr__]: ["%s(%r)" % (self.__class__.__name__, self.name)];
    no class overrides it. *)
Definition Type_repr (self : LLType) : result string :=
  do n <- name self;
  Ok (class_name self ++ "(" ++ repr_str n ++ ")").

End Repr.

(** ** All the field constructors *)

(** The float and boolean constructors under their names, in source
    order. *)
Definition float_bool_constructors : list (string * (string -> LLType)) :=
  [ ("BFloat32", BFloat32); ("LFloat32", LFloat32); ("NFloat32", NFloat32);
    ("BFloat64", BFloat64); ("LFloat64", LFloat64); ("NFloat64", NFloat64);
    ("Bool", Bool) ].

(** Every [def] of the module that returns a [Field]. *)
Definition field_constructors : list (string * (string -> LLType)) :=
  int_constructors ++ float_bool_constructors.

(** The names bound by assignment to a constructor defined above. *)
Definition constructor_aliases : list (string * (string -> LLType)) :=
  [ ("Byte", Byte); ("SChar", SChar); ("UChar", UChar); ("Char", Char) ].

(** The endianness character the module uses for a byte order, and the
    format code it uses for a signedness and a width: upper case for
    unsigned, lower case for signed, [b], [h], [l], [q] by width. *)
Definition endianness_char (e : byteorder) : string :=
  match e with Big => ">" | Little => "<" | Native => "=" end.

Definition format_code (s : signedness) (w : bitwidth) : string :=
  match s, w with
  | Unsigned, W8 => "B" | Unsigned, W16 => "H"
  | Unsigned, W32 => "L" | Unsigned, W64 => "Q"
  | Signed, W8 => "b" | Signed, W16 => "h"
  | Signed, W32 => "l" | Signed, W64 => "q"
  end.

(** ** Shapes of descriptors *)

(** The descriptors without a [name]: a [Vector], and a [Pointer] whose
    pointee has none. *)
Fixpoint nameless (t : LLType) : bool :=
  match t with
  | VectorObj _ => true
  | Pointer ty => nameless ty
  | _ => false
  end.

(** The classes that do not override [to_ctypes]. *)
Definition inherits_to_ctypes (t : LLType) : bool :=
  match t with
  | EnumObj _ _ | Union _ _ _ | VectorObj _
  | VariableString _ _ _ | TerminatedString _ _ => true
  | Struct _ _ | Field _ _ _ | Pointer _ | Sequence _ _ _ => false
  end.

(** The descriptors [to_ctypes] can reach from [t]: [t] itself, the
    fields of a [Struct], the [ty] of a [Pointer] or of a [Sequence],
    and what those reach. *)
Fixpoint reachable (t : LLType) : list LLType :=
  t :: match t with
       | Struct _ fs => flat_map reachable fs
       | Pointer ty => reachable ty
       | Sequence _ ty _ => reachable ty
       | _ => []
       end.

(** The descriptors that have a ctypes layout under a format table:
    fields whose code is in the table, pointers to and non-negative
    sequences of such descriptors, and structs of them. *)
Fixpoint compilable (format_ctypes : gmap string c_simple) (t : LLType)
  : bool :=
  match t with
  | Struct _ fs => forallb (compilable format_ctypes) fs
  | Field _ _ f => bool_decide (is_Some (format_ctypes !! f))
  | Pointer ty => compilable format_ctypes ty
  | Sequence _ ty len => compilable format_ctypes ty && (0 <=? len)
  | _ => false
  end.

(** The descriptor with the endianness of every [Field] replaced. *)
Fixpoint set_endianness (e : string) (t : LLType) : LLType :=
  match t with
  | Struct n fs => Struct n (map (set_endianness e) fs)
  | Field n _ f => Field n e f
  | EnumObj n idx => EnumObj n (set_endianness e idx)
  | Union n tag options =>
      Union n (set_endianness e tag) (map (set_endianness e) options)
  | VectorObj options => VectorObj (map (set_endianness e) options)
  | Pointer ty => Pointer (set_endianness e ty)
  | Sequence n ty len => Sequence n (set_endianness e ty) len
  | VariableString n ptr len =>
      VariableString n (set_endianness e ptr) (set_endianness e len)
  | TerminatedString n terminator => TerminatedString n terminator
  end.

(** The array lengths inside a layout are all non-negative. *)
Fixpoint array_lengths_ok (c : ctype) : bool :=
  match c with
  | CSimple _ => true
  | CStructure _ members => forallb (fun m => array_lengths_ok (snd m)) members
  | CPointer c' => array_lengths_ok c'
  | CArray c' len => (0 <=? len) && array_lengths_ok c'
  end.

(** The fundamental types inside a layout. *)
Fixpoint simple_types (c : ctype) : list c_simple :=
  match c with
  | CSimple s => [s]
  | CStructure _ members => flat_map (fun m => simple_types (snd m)) members
  | CPointer c' => simple_types c'
  | CArray c' _ => simple_types c'
  end.

(** A [Struct] among [among] whose class statement, on the members its
    fields compile to, is refused with [f]. *)
Definition class_refused (rt : Runtime)
           (format_ctypes : gmap string c_simple)
           (f : runtime_failure) (among : list LLType) : Prop :=
  exists n fs members,
    Struct n fs ∈ among /\
    fields_comprehension (to_ctypes rt format_ctypes) fs = Ok members /\
    Structure_class rt members = Some f.

(** Where an exception of [to_ctypes] comes from, among the descriptors
    [among]: [NoCtypeMapping] carries a descriptor of a class without
    [to_ctypes]; [KeyError] carries the format code of a [Field], absent
    from the table; [ValueError] needs a [Sequence] of negative length
    or a [Struct] whose name has a NUL; [AttributeError] on [name] needs
    a [Struct] with a nameless field; [OverflowError] needs a [Sequence]
    whose length does not fit a [Py_ssize_t] or whose array is too
    large; and the class statement of a [Struct] can be refused with a
    [TypeError], an [AttributeError], a [ValueError], an [OverflowError]
    or a crash.  The two other exceptions of the module have no
    origin. *)
Definition raise_origin (rt : Runtime)
           (format_ctypes : gmap string c_simple)
           (e : exn) (among : list LLType) : Prop :=
  match e with
  | NoCtypeMapping self =>
      inherits_to_ctypes self = true /\ self ∈ among
  | KeyError key =>
      format_ctypes !! key = None /\
      exists n en, Field n en key ∈ among
  | ValueError =>
      (exists n ty len, Sequence n ty len ∈ among /\ len < 0) \/
      (exists n fs, Struct n fs ∈ among /\ has_nul n = true) \/
      class_refused rt format_ctypes RValueError among
  | AttributeError attr =>
      (attr = "name" /\
       exists n fs f, Struct n fs ∈ among /\ f ∈ fs /\ nameless f = true) \/
      class_refused rt format_ctypes (RAttributeError attr) among
  | OverflowError =>
      (exists n ty len,
          Sequence n ty len ∈ among /\
          (len < - PY_SSIZE_T_MAX rt - 1 \/ PY_SSIZE_T_MAX rt < len \/
           exists c, to_ctypes rt format_ctypes ty = Ok c /\
                     array_too_large rt c len = true)) \/
      class_refused rt format_ctypes ROverflowError among
  | TypeError => class_refused rt format_ctypes RTypeError among
  | Crash => class_refused rt format_ctypes RCrash among
  | NoLlvmMapping _ | NoDtypeMapping _ => False
  end.

(** ** An example runtime

    CPython 3.11 with its ctypes on a 64-bit Linux: types have their
    natural sizes and alignments, a [Py_ssize_t] has 63 bits and a sign,
    and the class statement refuses the member names that are read-only
    or typed attributes of a class.  Sizes are computed in unbounded
    integers, without the wrap-around of C arithmetic, so the runtime is
    CPython's on layouts of at most [PY_SSIZE_T_MAX] bytes. *)

Definition simple_size (s : c_simple) : Z :=
  match s with
  | c_bool | c_char | c_byte | c_ubyte => 1
  | c_short | c_ushort => 2
  | c_int | c_uint | c_float => 4
  | c_long | c_ulong | c_longlong | c_ulonglong | c_double => 8
  end.

Fixpoint alignment (c : ctype) : Z :=
  match c with
  | CSimple s => simple_size s
  | CStructure _ members =>
      (fix widest (ms : list (string * ctype)) : Z :=
         match ms with
         | [] => 1
         | m :: ms' => Z.max (alignment (snd m)) (widest ms')
         end) members
  | CPointer _ => 8
  | CArray c' _ => alignment c'
  end.

Definition round_up (offset align : Z) : Z :=
  (offset + align - 1) / align * align.

Fixpoint sizeof (c : ctype) : Z :=
  match c with
  | CSimple s => simple_size s
  | CStructure _ members =>
      round_up
        ((fix place (offset : Z) (ms : list (string * ctype)) : Z :=
            match ms with
            | [] => offset
            | m :: ms' =>
                place (round_up offset (alignment (snd m)) + sizeof (snd m))
                  ms'
            end) 0 members)
        (alignment c)
  | CPointer _ => 8
  | CArray c' len => len * sizeof c'
  end.

(** The member names that cannot be bound on a class: the attributes of
    [type] that take a value of another kind, those that are read-only,
    and [_fields_] itself. *)
Definition refused_member (n : string) : option runtime_failure :=
  if bool_decide (n ∈ ["_fields_"; "__name__"; "__qualname__";
                       "__bases__"; "__class__"])
  then Some RTypeError
  else if bool_decide (n ∈ ["__mro__"; "__dict__"; "__text_signature__";
                            "__basicsize__"; "__itemsize__"; "__flags__";
                            "__weakrefoffset__"; "__base__";
                            "__dictoffset__"])
  then Some (RAttributeError n)
  else None.

(** The members are bound in order and the first refusal ends the
    statement; a member called [_anonymous_] is then read back as the
    list of anonymous fields, which it is not. *)
Fixpoint example_Structure_class (members : list (string * ctype))
  : option runtime_failure :=
  match members with
  | [] => None
  | m :: members' =>
      match refused_member (fst m) with
      | Some f => Some f
      | None =>
          match example_Structure_class members' with
          | Some f => Some f
          | None =>
              if String.eqb (fst m) "_anonymous_"
              then Some RTypeError else None
          end
      end
  end.

Definition example_runtime : Runtime :=
  {| PY_SSIZE_T_MAX := 2 ^ 63 - 1;
     array_too_large := fun c len =>
       negb (sizeof c =? 0) && ((2 ^ 63 - 1) / sizeof c <? len);
     Structure_class := example_Structure_class |}.

(** * Properties *)

(** ** The result monad *)

Lemma bind_Ok_inv {A B : Type} (m : result A) (k : A -> result B) (b : B) :
  bind m k = Ok b -> exists a, m = Ok a /\ k a = Ok b.
Proof.
  destruct m as [a | e]; simpl; intros H.
  - exists a. split; [reflexivity | exact H].
  - discriminate H.
Qed.

Lemma bind_Raise_inv {A B : Type} (m : result A) (k : A -> result B) (e : exn) :
  bind m k = Raise e ->
  m = Raise e \/ exists a, m = Ok a /\ k a = Raise e.
Proof.
  destruct m as [a | e']; simpl; intros H.
  - right. exists a. split; [reflexivity | exact H].
  - left. congruence.
Qed.

(** ** Arrays *)

Lemma array_of_Ok_inv (rt : Runtime) (c : ctype) (len : Z) (c' : ctype) :
  array_of rt c len = Ok c' ->
  0 <= len <= PY_SSIZE_T_MAX rt /\
  array_too_large rt c len = false /\
  c' = CArray c len.
Proof.
  unfold array_of.
  destruct (Z.ltb_spec len (- PY_SSIZE_T_MAX rt - 1)) as [Hlo | Hlo];
    [discriminate |].
  destruct (Z.ltb_spec (PY_SSIZE_T_MAX rt) len) as [Hhi | Hhi]; [discriminate
      |].
  simpl. destruct (Z.ltb_spec len 0) as [Hneg | Hneg]; [discriminate |].
  destruct (array_too_large rt c len); [discriminate |].
  intros H. injection H as <-. repeat split; lia.
Qed.

Lemma array_of_Ok (rt : Runtime) (c : ctype) (len : Z) :
  0 <= len <= PY_SSIZE_T_MAX rt ->
  array_too_large rt c len = false ->
  array_of rt c len = Ok (CArray c len).
Proof.
  intros Hlen Hsize. unfold array_of.
  destruct (Z.ltb_spec len (- PY_SSIZE_T_MAX rt - 1)) as [Hlo | Hlo]; [lia |].
  destruct (Z.ltb_spec (PY_SSIZE_T_MAX rt) len) as [Hhi | Hhi]; [lia |].
  simpl. destruct (Z.ltb_spec len 0) as [Hneg | Hneg]; [lia |].
  by rewrite Hsize.
Qed.

Lemma array_of_Raise_inv (rt : Runtime) (c : ctype) (len : Z) (e : exn) :
  array_of rt c len = Raise e ->
  (e = OverflowError /\
   (len < - PY_SSIZE_T_MAX rt - 1 \/ PY_SSIZE_T_MAX rt < len \/
    array_too_large rt c len = true)) \/
  (e = ValueError /\ - PY_SSIZE_T_MAX rt - 1 <= len < 0).
Proof.
  unfold array_of.
  destruct (Z.ltb_spec len (- PY_SSIZE_T_MAX rt - 1)) as [Hlo | Hlo].
  { simpl. intros H. injection H as <-. left. split; [done | lia]. }
  destruct (Z.ltb_spec (PY_SSIZE_T_MAX rt) len) as [Hhi | Hhi].
  { simpl. intros H. injection H as <-. left. split; [done | lia]. }
  simpl. destruct (Z.ltb_spec len 0) as [Hneg | Hneg].
  { intros H. injection H as <-. right. split; [done | lia]. }
  destruct (array_too_large rt c len) eqn:Hsize; [| discriminate].
  intros H. injection H as <-. left. split; [done | auto].
Qed.

(** ** Names *)

(** C7: the name of [Pointer(t)] is the name of [t], for every descriptor
    [t]; when [t] has no [name] attribute the same [AttributeError]
    comes out of both. *)
Theorem Pointer_name_transparent (t : LLType) :
  name (Pointer t) = name t.
Proof. reflexivity. Qed.

Lemma Pointer_name_iterated (k : nat) (t : LLType) :
  name (Nat.iter k Pointer t) = name t.
Proof.
  induction k as [| k IH]; simpl; [reflexivity | exact IH].
Qed.

(** Only a [Vector], possibly behind pointers, has no name. *)
Lemma name_Raise_inv (t : LLType) (e : exn) :
  name t = Raise e -> e = AttributeError "name".
Proof.
  induction t; simpl; intros H; try discriminate H; auto.
  congruence.
Qed.

(** ** [to_ctypes] *)

Section FormatTableProperties.

Variable rt : Runtime.
Variable format_ctypes : gmap string c_simple.

(** A descriptor that compiles has a name. *)
Lemma to_ctypes_Ok_name (t : LLType) (c : ctype) :
  to_ctypes rt format_ctypes t = Ok c -> exists n, name t = Ok n.
Proof.
  revert c. induction t; intros c H; simpl in *; eauto; try discriminate H.
  apply bind_Ok_inv in H as (c' & Hc' & _). eauto.
Qed.

(** The comprehension over fields that all compile: one member per
    field, in order, made of the field's name and the field's layout. *)
Lemma fields_comprehension_Ok (fs : list LLType) :
  Forall (fun f => exists c, to_ctypes rt format_ctypes f = Ok c) fs ->
  exists members,
    fields_comprehension (to_ctypes rt format_ctypes) fs = Ok members /\
    Forall2
      (fun f m =>
         name f = Ok (fst m) /\ to_ctypes rt format_ctypes f = Ok (snd m))
      fs members.
Proof.
  induction 1 as [| f fs (c & Hc) _ (members & Hms & IH)]; simpl.
  - exists []. split; [reflexivity | constructor].
  - destruct (to_ctypes_Ok_name f c Hc) as (n & Hn).
    exists ((n, c) :: members). rewrite Hn, Hc, Hms. simpl.
    split; [reflexivity | constructor; auto].
Qed.

(** Conversely, a comprehension that returns has compiled every
    field. *)
Lemma fields_comprehension_Ok_inv (fs : list LLType)
      (members : list (string * ctype)) :
  fields_comprehension (to_ctypes rt format_ctypes) fs = Ok members ->
  Forall2
    (fun f m =>
       name f = Ok (fst m) /\ to_ctypes rt format_ctypes f = Ok (snd m))
    fs members.
Proof.
  revert members. induction fs as [| f fs IH]; simpl; intros members H.
  - injection H as <-. constructor.
  - apply bind_Ok_inv in H as (n & Hn & H).
    apply bind_Ok_inv in H as (c & Hc & H).
    apply bind_Ok_inv in H as (rest & Hrest & H).
    injection H as <-. constructor; auto.
Qed.

(** Members in hand for every field give the comprehension's result. *)
Lemma fields_comprehension_Forall2 (fs : list LLType)
      (members : list (string * ctype)) :
  Forall2
    (fun f m =>
       name f = Ok (fst m) /\ to_ctypes rt format_ctypes f = Ok (snd m))
    fs members ->
  fields_comprehension (to_ctypes rt format_ctypes) fs = Ok members.
Proof.
  induction 1 as [| f [n c] fs members (Hn & Hc) _ IH]; simpl in *.
  - reflexivity.
  - by rewrite Hn, Hc, IH.
Qed.

(** What [Struct.to_ctypes] does once the comprehension has returned:
    the class statement, then the assignment of the name. *)
Lemma Struct_to_ctypes_after_comprehension (n : string) (fs : list LLType)
      (members : list (string * ctype)) :
  fields_comprehension (to_ctypes rt format_ctypes) fs = Ok members ->
  to_ctypes rt format_ctypes (Struct n fs)
  = match Structure_class rt members with
    | Some f => Raise (runtime_exn f)
    | None => if has_nul n then Raise ValueError
              else Ok (CStructure n members)
    end.
Proof.
  intros H. simpl. rewrite H. simpl. unfold class_statement.
  destruct (Structure_class rt members); simpl; [reflexivity |].
  unfold set_class_name. by destruct (has_nul n).
Qed.

(** A [Struct] that compiles has passed the three steps. *)
Lemma Struct_to_ctypes_Ok_inv (n : string) (fs : list LLType) (c : ctype) :
  to_ctypes rt format_ctypes (Struct n fs) = Ok c ->
  exists members,
    fields_comprehension (to_ctypes rt format_ctypes) fs = Ok members /\
    Structure_class rt members = None /\
    has_nul n = false /\
    c = CStructure n members.
Proof.
  intros H.
  destruct (fields_comprehension (to_ctypes rt format_ctypes) fs)
    as [members | e] eqn:Hms; [| simpl in H; rewrite Hms in H; discriminate H].
  rewrite (Struct_to_ctypes_after_comprehension n fs members Hms) in H.
  exists members.
  destruct (Structure_class rt members); [discriminate H |].
  destruct (has_nul n); [discriminate H |].
  injection H as <-. done.
Qed.

(** C1, as the code has it: a [Struct] whose fields all compile, whose
    member list ctypes accepts in the class statement and whose name has
    no NUL character compiles to a structure named like the [Struct],
    with one member per field in the declared order; each member's
    identifier is the field's name and its type is the field's
    layout. *)
Theorem Struct_to_ctypes_declared_order (n : string) (fs : list LLType) :
  Forall (fun f => exists c, to_ctypes rt format_ctypes f = Ok c) fs ->
  (forall members,
      Forall2
        (fun f m =>
           name f = Ok (fst m) /\ to_ctypes rt format_ctypes f = Ok (snd m))
        fs members ->
      Structure_class rt members = None) ->
  has_nul n = false ->
  exists members,
    to_ctypes rt format_ctypes (Struct n fs) = Ok (CStructure n members) /\
    Forall2
      (fun f m =>
         name f = Ok (fst m) /\ to_ctypes rt format_ctypes f = Ok (snd m))
      fs members.
Proof.
  intros Hfs Hclass Hname.
  destruct (fields_comprehension_Ok fs Hfs) as (members & Hms & Hall).
  exists members. split; [| exact Hall].
  rewrite (Struct_to_ctypes_after_comprehension n fs members Hms).
  by rewrite (Hclass members Hall), Hname.
Qed.

(** The member identifiers alone: the fields' names, in order. *)
Lemma Struct_to_ctypes_member_names (n : string) (fs : list LLType)
      (c : ctype) :
  to_ctypes rt format_ctypes (Struct n fs) = Ok c ->
  exists members,
    c = CStructure n members /\
    map name fs = map (fun m => Ok (fst m)) members.
Proof.
  intros H.
  apply Struct_to_ctypes_Ok_inv in H as (members & Hms & _ & _ & ->).
  exists members. split; [reflexivity |].
  apply fields_comprehension_Ok_inv in Hms.
  induction Hms as [| f m fs members (Hn & _) _ IH]; simpl;
    [reflexivity | by rewrite Hn, IH].
Qed.

(** A first field that has a name and does not compile makes the
    [Struct] raise the field's exception. *)
Lemma Struct_to_ctypes_first_failure (n : string) (f : LLType)
      (fs : list LLType) (fn : string) (e : exn) :
  name f = Ok fn -> to_ctypes rt format_ctypes f = Raise e ->
  to_ctypes rt format_ctypes (Struct n (f :: fs)) = Raise e.
Proof. intros Hn He. simpl. by rewrite Hn, He. Qed.

(** C2, as the code has it: a [Field] whose format code is absent from
    the table raises the dictionary's [KeyError] on that code; a
    [Field] whose format code is present returns the table's entry. *)
Theorem Field_to_ctypes_table_lookup (n e f : string) :
  (format_ctypes !! f = None ->
   to_ctypes rt format_ctypes (Field n e f) = Raise (KeyError f)) /\
  (forall c, format_ctypes !! f = Some c ->
             to_ctypes rt format_ctypes (Field n e f) = Ok (CSimple c)).
Proof.
  simpl. unfold format_ctypes_getitem.
  split; [intros -> | intros c ->]; reflexivity.
Qed.

(** C6: [Enum], [Union], [Vector], [VariableString] and
    [TerminatedString] have no ctypes mapping: [to_ctypes] raises
    [NoCtypeMapping] with the descriptor itself. *)
Theorem no_ctypes_mapping_by_default :
  (forall n idx,
      to_ctypes rt format_ctypes (EnumObj n idx)
      = Raise (NoCtypeMapping (EnumObj n idx))) /\
  (forall n tag options,
      to_ctypes rt format_ctypes (Union n tag options)
      = Raise (NoCtypeMapping (Union n tag options))) /\
  (forall options,
      to_ctypes rt format_ctypes (VectorObj options)
      = Raise (NoCtypeMapping (VectorObj options))) /\
  (forall n ptr len,
      to_ctypes rt format_ctypes (VariableString n ptr len)
      = Raise (NoCtypeMapping (VariableString n ptr len))) /\
  (forall n terminator,
      to_ctypes rt format_ctypes (TerminatedString n terminator)
      = Raise (NoCtypeMapping (TerminatedString n terminator))).
Proof. repeat split. Qed.

(** A [Pointer] compiles exactly when its pointee does. *)
Lemma Pointer_to_ctypes (t : LLType) :
  to_ctypes rt format_ctypes (Pointer t)
  = do c <- to_ctypes rt format_ctypes t; Ok (CPointer c).
Proof. reflexivity. Qed.

End FormatTableProperties.

(** C2 at a table entry and at a missing code. *)
Lemma Field_to_ctypes_table_lookup_witness :
  (example_format_ctypes !! "Z" = None /\
   to_ctypes example_runtime example_format_ctypes (Field "x" "=" "Z") = Raise
       (KeyError "Z")) /\
  (example_format_ctypes !! "B" = Some c_ubyte /\
   to_ctypes example_runtime example_format_ctypes (Field "x" "=" "B") = Ok
       (CSimple c_ubyte)).
Proof.
  split; split.
  - vm_compute. reflexivity.
  - apply (Field_to_ctypes_table_lookup example_runtime example_format_ctypes
      "x" "=" "Z").
    vm_compute. reflexivity.
  - vm_compute. reflexivity.
  - apply (Field_to_ctypes_table_lookup example_runtime example_format_ctypes
      "x" "=" "B").
    vm_compute. reflexivity.
Defined.

(** A [Field] with a code outside the table does not raise
    [NoCtypeMapping]: the failure is the table's [KeyError]. *)
Lemma Field_unknown_format_KeyError :
  example_format_ctypes !! "Z" = None /\
  to_ctypes example_runtime example_format_ctypes (Field "x" "=" "Z") = Raise
      (KeyError "Z") /\
  forall self,
    to_ctypes example_runtime example_format_ctypes (Field "x" "=" "Z")
    <> Raise (NoCtypeMapping self).
Proof.
  split; [vm_compute; reflexivity |].
  assert (H : to_ctypes example_runtime example_format_ctypes (Field "x" "="
      "Z")
              = Raise (KeyError "Z")) by (vm_compute; reflexivity).
  split; [exact H |]. intros self. rewrite H. discriminate.
Qed.

(** C1 on the strided array descriptor of the module's demo. *)
Lemma Struct_to_ctypes_declared_order_witness :
  Forall
    (fun f => exists c,
         to_ctypes example_runtime example_format_ctypes f = Ok c)
    [ Pointer (SNInt8 "data");
      Sequence "shape" (UNInt8 EmptyString) 3;
      Sequence "stride" (UNInt8 EmptyString) 3 ] /\
  (forall members,
      Forall2
        (fun f m =>
           name f = Ok (fst m) /\
           to_ctypes example_runtime example_format_ctypes f = Ok (snd m))
        [ Pointer (SNInt8 "data");
          Sequence "shape" (UNInt8 EmptyString) 3;
          Sequence "stride" (UNInt8 EmptyString) 3 ]
        members ->
      Structure_class example_runtime members = None) /\
  has_nul "Array_S" = false /\
  exists members,
    to_ctypes example_runtime example_format_ctypes (Array_S "foo" SNInt8 3)
    = Ok (CStructure "Array_S" members) /\
    Forall2
      (fun f m =>
         name f = Ok (fst m) /\
         to_ctypes example_runtime example_format_ctypes f = Ok (snd m))
      [ Pointer (SNInt8 "data");
        Sequence "shape" (UNInt8 EmptyString) 3;
        Sequence "stride" (UNInt8 EmptyString) 3 ]
      members.
Proof.
  assert (H : Forall
                (fun f => exists c,
                     to_ctypes example_runtime example_format_ctypes f
                     = Ok c)
                [ Pointer (SNInt8 "data");
                  Sequence "shape" (UNInt8 EmptyString) 3;
                  Sequence "stride" (UNInt8 EmptyString) 3 ]).
  { repeat constructor.
    - exists (CPointer (CSimple c_byte)). vm_compute. reflexivity.
    - exists (CArray (CSimple c_ubyte) 3). vm_compute. reflexivity.
    - exists (CArray (CSimple c_ubyte) 3). vm_compute. reflexivity. }
  assert (Hclass : forall members,
             Forall2
               (fun f m =>
                  name f = Ok (fst m) /\
                  to_ctypes example_runtime example_format_ctypes f
                  = Ok (snd m))
               [ Pointer (SNInt8 "data");
                 Sequence "shape" (UNInt8 EmptyString) 3;
                 Sequence "stride" (UNInt8 EmptyString) 3 ]
               members ->
             Structure_class example_runtime members = None).
  { intros members Hms.
    apply fields_comprehension_Forall2 in Hms.
    vm_compute in Hms. injection Hms as <-. vm_compute. reflexivity. }
  split; [exact H |]. split; [exact Hclass |]. split; [reflexivity |].
  exact (Struct_to_ctypes_declared_order example_runtime
           example_format_ctypes "Array_S" _ H Hclass eq_refl).
Defined.

(** A [Struct] whose only field compiles and is called [_fields_] does
    not compile: the class statement refuses the member with a
    [TypeError], so compiling fields are not enough. *)
Lemma Struct_to_ctypes_member_refused :
  Forall
    (fun f => exists c,
         to_ctypes example_runtime example_format_ctypes f = Ok c)
    [Field "_fields_" "=" "B"] /\
  to_ctypes example_runtime example_format_ctypes
    (Struct "s" [Field "_fields_" "=" "B"])
  = Raise TypeError /\
  ~ exists members,
      to_ctypes example_runtime example_format_ctypes
        (Struct "s" [Field "_fields_" "=" "B"])
      = Ok (CStructure "s" members).
Proof.
  assert (H : to_ctypes example_runtime example_format_ctypes
                (Struct "s" [Field "_fields_" "=" "B"])
              = Raise TypeError) by (vm_compute; reflexivity).
  split; [| split; [exact H |]].
  - repeat constructor. exists (CSimple c_ubyte). vm_compute. reflexivity.
  - intros (members & Hm). rewrite H in Hm. discriminate Hm.
Qed.

Example Array_S_to_ctypes :
  to_ctypes example_runtime example_format_ctypes (Array_S "foo" SNInt8 3)
  = Ok (CStructure "Array_S"
          [ ("data", CPointer (CSimple c_byte));
            ("shape", CArray (CSimple c_ubyte) 3);
            ("stride", CArray (CSimple c_ubyte) 3) ]).
Proof. vm_compute. reflexivity. Qed.

(** A [Vector] member has no name: the comprehension stops on the
    [AttributeError] before the member is compiled. *)
Example Struct_with_Vector_member :
  to_ctypes example_runtime example_format_ctypes (Struct "s" [Vector 4
      [UNInt8 "x"]])
  = Raise (AttributeError "name").
Proof. vm_compute. reflexivity. Qed.

(** ** [to_dtype] *)

(** C5, on a [Field]: [to_dtype] reads the attribute [endianess], which
    no [Field] has, and raises [AttributeError] whatever the field. *)
Theorem Field_to_dtype_raises_AttributeError (n e f : string) :
  to_dtype (Field n e f) = Raise (AttributeError "endianess").
Proof. reflexivity. Qed.

(** The other half of C5: every other class inherits [Type.to_dtype]. *)
Lemma to_dtype_other_variants (t : LLType) :
  endianness_format t = None -> to_dtype t = Raise (NoDtypeMapping t).
Proof. destruct t; simpl; intros H; [| discriminate H | ..]; reflexivity. Qed.

(** With the attribute spelled [endianness] the lookup succeeds. *)
Lemma Field_getattr_endianness (n e f : string) :
  Field_getattr n e f "endianness" = Ok e /\
  Field_getattr n e f "format" = Ok f.
Proof. split; reflexivity. Qed.

(** ** String helpers *)

Lemma bind_positional_arity (params : list string) (args : list value) :
  List.length args <> List.length params ->
  bind_positional params args = Raise TypeError.
Proof.
  intros H. unfold bind_positional.
  destruct (Nat.eqb_spec (List.length args) (List.length params));
    [contradiction | reflexivity].
Qed.

(** C3, as the code runs: [FixedString] calls [Sequence] with two
    positional arguments where [__init__] takes three, so the call raises
    [TypeError] for every length and no [Sequence] is returned. *)
Theorem FixedString_raises_TypeError (length : Z) :
  FixedString length = Raise TypeError.
Proof. reflexivity. Qed.

(** C4, as the code runs: [CString] calls [TerminatedString] with one
    positional argument where [__init__] takes two, so the call raises
    [TypeError] and no [TerminatedString] is returned. *)
Theorem CString_raises_TypeError :
  CString = Raise TypeError.
Proof. reflexivity. Qed.

(** With a name in front, the same arguments build the descriptors. *)
Example Sequence_call_three_arguments :
  Sequence_call [VStr "s"; VNode (Char EmptyString); VInt 5]
  = Ok (Some (Sequence "s" (Field EmptyString "<" "b") 5)).
Proof. reflexivity. Qed.

(** ** The integer constructors *)

(** C8: every (signedness, byte order, width) triple has exactly one
    constructor under its name, which builds a [Field]; there are 24
    constructors in all, and the (endianness, format) pairs of the 24
    fields are pairwise distinct, whatever names the fields are given. *)
Theorem int_constructors_exhaustive_distinct :
  (forall s e w, exists ctor,
      constructors_named (constructor_name s e w) = [ctor] /\
      forall n, exists en fmt, ctor n = Field n en fmt) /\
  List.length int_constructors = 24%nat /\
  (forall arg : string -> string,
      NoDup (map (fun entry => endianness_format (snd entry (arg (fst entry))))
               int_constructors)).
Proof.
  split; [| split].
  - intros s e w; destruct s, e, w; eexists;
      (split; [vm_compute; reflexivity | intros n; eexists _, _; reflexivity]).
  - reflexivity.
  - intros arg. cbn.
    apply (bool_decide_unpack _). vm_compute. reflexivity.
Qed.

(** ** Array builders *)

(** C9: [Array_C] returns a [Struct] of two fields, a [Pointer] to
    [ty("data")] and a [Sequence] named [shape] of length [nd] whose cell
    is the unsigned 8-bit native-endian field with the empty name;
    [Array_F] has the same fields, and [Array_S] has a third, a
    [Sequence] named [stride] of the same length and cell.  This holds
    for every [nd], non-negative or not. *)
Theorem Array_builders_fields (n : string) (ty : string -> LLType) (nd : Z) :
  fields (Array_C n ty nd)
  = Some [ Pointer (ty "data");
           Sequence "shape" (Field EmptyString "=" "B") nd ] /\
  fields (Array_F n ty nd)
  = Some [ Pointer (ty "data");
           Sequence "shape" (Field EmptyString "=" "B") nd ] /\
  fields (Array_S n ty nd)
  = Some [ Pointer (ty "data");
           Sequence "shape" (Field EmptyString "=" "B") nd;
           Sequence "stride" (Field EmptyString "=" "B") nd ].
Proof. repeat split. Qed.

(** C10: the builders do not use their [name] argument; the [Struct] is
    named [Array_C], [Array_F] or [Array_S], and two calls that differ in
    the name alone return the same descriptor. *)
Theorem Array_builders_ignore_name (n : string) (ty : string -> LLType)
        (nd : Z) :
  (name (Array_C n ty nd) = Ok "Array_C" /\
   name (Array_F n ty nd) = Ok "Array_F" /\
   name (Array_S n ty nd) = Ok "Array_S") /\
  (forall n' : string,
      Array_C n' ty nd = Array_C n ty nd /\
      Array_F n' ty nd = Array_F n ty nd /\
      Array_S n' ty nd = Array_S n ty nd).
Proof. repeat split. Qed.

(** The member named [data] of a compiled array descriptor: the pointer
    takes the name of the element field. *)
Lemma Array_data_member_name (ctor : string * (string -> LLType)) (n : string) :
  ctor ∈ int_constructors ->
  name (Pointer (snd ctor n)) = Ok n.
Proof.
  unfold int_constructors. intros H.
  repeat (apply elem_of_cons in H as [-> | H]; [reflexivity |]).
  by apply elem_of_nil in H.
Qed.

(** * Further properties of the module *)

(** ** Which descriptors have a name *)

Lemma nameless_true_name (t : LLType) :
  nameless t = true -> name t = Raise (AttributeError "name").
Proof. induction t; simpl; intros H; try discriminate H; auto. Qed.

Lemma nameless_false_name (t : LLType) :
  nameless t = false -> exists n, name t = Ok n.
Proof. induction t; simpl; intros H; try discriminate H; eauto. Qed.

(** [t.name] raises exactly on a [Vector] and on pointers to one, at any
    depth; on every other descriptor it returns. *)
Theorem name_Raise_iff_nameless (t : LLType) :
  (name t = Raise (AttributeError "name") <-> nameless t = true) /\
  ((exists n, name t = Ok n) <-> nameless t = false).
Proof.
  destruct (nameless t) eqn:Hn.
  - pose proof (nameless_true_name t Hn) as H. rewrite H.
    split; split; try done. intros (n & Hn'). discriminate Hn'.
  - destruct (nameless_false_name t Hn) as (n & H). rewrite H.
    split; split; try done. eauto.
Qed.

(** ** [Struct.to_ctypes] beyond the successful case *)

Section StructProperties.

Variable rt : Runtime.
Variable format_ctypes : gmap string c_simple.

(** The comprehension gets past a prefix of fields that compile. *)
Lemma fields_comprehension_app (pre rest : list LLType) :
  Forall (fun f => exists c, to_ctypes rt format_ctypes f = Ok c) pre ->
  exists members,
    fields_comprehension (to_ctypes rt format_ctypes) (app pre rest)
    = do r <- fields_comprehension (to_ctypes rt format_ctypes) rest;
      Ok (app members r).
Proof.
  induction 1 as [| f pre (c & Hc) _ (members & IH)]; simpl.
  - exists []. by destruct (fields_comprehension _ rest).
  - destruct (to_ctypes_Ok_name rt format_ctypes f c Hc) as (n & Hn).
    exists ((n, c) :: members). rewrite Hn, Hc, IH. simpl.
    by destruct (fields_comprehension _ rest).
Qed.

(** A [Struct] compiles exactly when each field has a name and
    compiles, ctypes accepts the members in the class statement and the
    name has no NUL character; the layout is then the structure of those
    members in the declared order. *)
Theorem Struct_to_ctypes_Ok_iff (n : string) (fs : list LLType) (c : ctype) :
  to_ctypes rt format_ctypes (Struct n fs) = Ok c <->
  exists members,
    c = CStructure n members /\
    Forall2
      (fun f m =>
         name f = Ok (fst m) /\ to_ctypes rt format_ctypes f = Ok (snd m))
      fs members /\
    Structure_class rt members = None /\
    has_nul n = false.
Proof.
  split.
  - intros H.
    apply Struct_to_ctypes_Ok_inv in H as (members & Hms & Hc & Hn & ->).
    exists members. split; [reflexivity |].
    split; [by apply fields_comprehension_Ok_inv | done].
  - intros (members & -> & H & Hc & Hn).
    apply fields_comprehension_Forall2 in H.
    rewrite (Struct_to_ctypes_after_comprehension _ _ n fs members H).
    by rewrite Hc, Hn.
Qed.

(** The first field that fails decides the outcome: after fields that
    compile, a named field that raises [e] makes the [Struct] raise [e],
    whatever follows it. *)
Theorem Struct_to_ctypes_first_failure_at (n : string)
        (pre : list LLType) (f : LLType) (post : list LLType)
        (fn : string) (e : exn) :
  Forall (fun f' => exists c, to_ctypes rt format_ctypes f' = Ok c) pre ->
  name f = Ok fn ->
  to_ctypes rt format_ctypes f = Raise e ->
  to_ctypes rt format_ctypes (Struct n (app pre (f :: post))) = Raise e.
Proof.
  intros Hpre Hn He. simpl.
  destruct (fields_comprehension_app pre (f :: post) Hpre) as (ms & ->).
  simpl. by rewrite Hn, He.
Qed.


End StructProperties.

Lemma Struct_to_ctypes_first_failure_at_witness :
  Forall (fun f' => exists c, to_ctypes example_runtime example_format_ctypes
      f' = Ok c)
    [UNInt8 "a"] /\
  name (EnumObj "e" (Byte "e")) = Ok "e" /\
  to_ctypes example_runtime example_format_ctypes (EnumObj "e" (Byte "e"))
  = Raise (NoCtypeMapping (EnumObj "e" (Byte "e"))) /\
  to_ctypes example_runtime example_format_ctypes
    (Struct "s" (app [UNInt8 "a"] (EnumObj "e" (Byte "e") :: [Field "z" "="
        "Z"])))
  = Raise (NoCtypeMapping (EnumObj "e" (Byte "e"))).
Proof.
  assert (H : Forall
                (fun f' => exists c,
                     to_ctypes example_runtime example_format_ctypes f' = Ok c)
                [UNInt8 "a"]).
  { repeat constructor. exists (CSimple c_ubyte). vm_compute. reflexivity. }
  split; [exact H |]. split; [reflexivity |]. split; [reflexivity |].
  exact (Struct_to_ctypes_first_failure_at example_runtime
      example_format_ctypes "s"
           [UNInt8 "a"] (EnumObj "e" (Byte "e")) [Field "z" "=" "Z"] "e" _
           H eq_refl eq_refl).
Defined.


(** ** The comprehension under a change of compiler *)

Lemma fields_comprehension_mono (g g' : LLType -> result ctype)
      (fs : list LLType) (members : list (string * ctype)) :
  Forall (fun f => forall c, g f = Ok c -> g' f = Ok c) fs ->
  fields_comprehension g fs = Ok members ->
  fields_comprehension g' fs = Ok members.
Proof.
  intros Hfs. revert members.
  induction Hfs as [| f fs Hf _ IH]; simpl; intros members H; [exact H |].
  apply bind_Ok_inv in H as (n & Hn & H).
  apply bind_Ok_inv in H as (c & Hc & H).
  apply bind_Ok_inv in H as (rest & Hrest & H).
  rewrite Hn, (Hf c Hc), (IH rest Hrest). exact H.
Qed.

Lemma fields_comprehension_map (g : LLType -> result ctype)
      (h : LLType -> LLType) (fs : list LLType) :
  (forall f, name (h f) = name f) ->
  fields_comprehension g (map h fs)
  = fields_comprehension (fun f => g (h f)) fs.
Proof.
  intros Hh. induction fs as [| f fs IH]; simpl; [reflexivity |].
  by rewrite Hh, IH.
Qed.

Lemma fields_comprehension_Raise_inv (g : LLType -> result ctype)
      (fs : list LLType) (e : exn) :
  fields_comprehension g fs = Raise e ->
  exists f, f ∈ fs /\ (name f = Raise e \/ g f = Raise e).
Proof.
  induction fs as [| f fs IH]; simpl; intros H; [discriminate H |].
  apply bind_Raise_inv in H as [H | (n & _ & H)].
  { exists f. split; [left | by left]. }
  apply bind_Raise_inv in H as [H | (c & _ & H)].
  { exists f. split; [left | by right]. }
  apply bind_Raise_inv in H as [H | (rest & _ & H)]; [| discriminate H].
  destruct (IH H) as (f' & Hin & Hf'). exists f'. split; [by right | done].
Qed.

(** ** Which descriptors compile *)

Section CompileProperties.

Variable rt : Runtime.
Variable format_ctypes : gmap string c_simple.

(** [to_ctypes] returns a layout only on the [compilable] descriptors:
    fields whose code is in the table, pointers to and sequences of
    non-negative length over compilable descriptors, and structs whose
    fields are all compilable. *)
Theorem to_ctypes_Ok_compilable (t : LLType) (c : ctype) :
  to_ctypes rt format_ctypes t = Ok c ->
  compilable format_ctypes t = true.
Proof.
  revert c. induction t as
    [n fs IH | n en f | n idx _ | n tag options _ _ | options _
    | ty IH | n ty len IH | n ptr len _ _ | n term] using LLType_nested_ind;
    intros c H; try (simpl in H; discriminate H).
  - apply Struct_to_ctypes_Ok_inv in H as (ms & Hms & _).
    apply fields_comprehension_Ok_inv in Hms. simpl. revert ms Hms.
    induction IH as [| f fs IHf _ IHfs]; intros ms Hms; [reflexivity |].
    inversion Hms as [| ? m ? ms' (_ & Hc) Hrest]; subst. simpl.
    apply andb_true_intro. split; [by eapply IHf | by eapply IHfs].
  - simpl in *. unfold format_ctypes_getitem in H.
    destruct (format_ctypes !! f) as [s |]; [| discriminate H].
    apply bool_decide_eq_true. eauto.
  - simpl in *. apply bind_Ok_inv in H as (c' & H' & _). by eapply IH.
  - simpl in *. apply bind_Ok_inv in H as (c' & H' & H).
    apply array_of_Ok_inv in H as (Hlen & _).
    apply andb_true_intro. split; [by eapply IH | apply Z.leb_le; lia].
Qed.

(** A descriptor that compiles under a table compiles to the same layout
    under every larger table. *)
Theorem to_ctypes_table_mono (format_ctypes' : gmap string c_simple)
        (t : LLType) (c : ctype) :
  format_ctypes ⊆ format_ctypes' ->
  to_ctypes rt format_ctypes t = Ok c ->
  to_ctypes rt format_ctypes' t = Ok c.
Proof.
  intros Hsub. revert c. induction t as
    [n fs IH | n en f | n idx _ | n tag options _ _ | options _
    | ty IH | n ty len IH | n ptr len _ _ | n term] using LLType_nested_ind;
    intros c H; try (simpl in H; discriminate H).
  - apply Struct_to_ctypes_Ok_inv in H as (ms & Hms & Hc & Hn & ->).
    apply (fields_comprehension_mono _ (to_ctypes rt format_ctypes')
             fs ms IH) in Hms.
    rewrite (Struct_to_ctypes_after_comprehension _ _ n fs ms Hms).
    by rewrite Hc, Hn.
  - simpl in *. unfold format_ctypes_getitem in *.
    destruct (format_ctypes !! f) as [s |] eqn:Hf; [| discriminate H].
    by rewrite (lookup_weaken _ _ _ _ Hf Hsub).
  - simpl in *. apply bind_Ok_inv in H as (c' & Hc' & H).
    by rewrite (IH c' Hc').
  - simpl in *. apply bind_Ok_inv in H as (c' & Hc' & H).
    by rewrite (IH c' Hc').
Qed.

Lemma name_set_endianness (e : string) (t : LLType) :
  name (set_endianness e t) = name t.
Proof. induction t; simpl; auto. Qed.

(** [to_ctypes] does not look at the endianness: with the endianness of
    every [Field] replaced, a descriptor compiles to the same layout. *)
Theorem to_ctypes_set_endianness (e : string) (t : LLType) (c : ctype) :
  to_ctypes rt format_ctypes (set_endianness e t) = Ok c <->
  to_ctypes rt format_ctypes t = Ok c.
Proof.
  revert c. induction t as
    [n fs IH | n en f | n idx _ | n tag options _ _ | options _
    | ty IH | n ty len IH | n ptr len _ _ | n term] using LLType_nested_ind;
    intros c; try done.
  - change (set_endianness e (Struct n fs))
      with (Struct n (map (set_endianness e) fs)).
    split; intros H;
      apply Struct_to_ctypes_Ok_inv in H as (ms & Hms & Hc & Hn & ->).
    + rewrite (fields_comprehension_map _ _ fs (name_set_endianness e))
        in Hms.
      apply (fields_comprehension_mono _ (to_ctypes rt format_ctypes)
               fs ms) in Hms.
      * rewrite (Struct_to_ctypes_after_comprehension _ _ n fs ms Hms).
        by rewrite Hc, Hn.
      * eapply Forall_impl; [exact IH |]. intros f Hf c'. apply Hf.
    + apply (fields_comprehension_mono _
               (fun f => to_ctypes rt format_ctypes (set_endianness e f))
               fs ms) in Hms.
      * rewrite <- (fields_comprehension_map _ _ fs
                      (name_set_endianness e)) in Hms.
        rewrite (Struct_to_ctypes_after_comprehension _ _ n _ ms Hms).
        by rewrite Hc, Hn.
      * eapply Forall_impl; [exact IH |]. intros f Hf c'. apply Hf.
  - simpl. split; intros H; apply bind_Ok_inv in H as (c' & Hc' & H);
      apply IH in Hc'; by rewrite Hc'.
  - simpl. split; intros H; apply bind_Ok_inv in H as (c' & Hc' & H);
      apply IH in Hc'; by rewrite Hc'.
Qed.

End CompileProperties.

Lemma to_ctypes_table_mono_witness :
  ({[ "b" := c_byte ]} : gmap string c_simple) ⊆ example_format_ctypes /\
  to_ctypes example_runtime {[ "b" := c_byte ]} (Sequence "s" (SNInt8 "x") 2)
  = Ok (CArray (CSimple c_byte) 2) /\
  to_ctypes example_runtime example_format_ctypes (Sequence "s" (SNInt8 "x") 2)
  = Ok (CArray (CSimple c_byte) 2).
Proof.
  assert (Hsub : ({[ "b" := c_byte ]} : gmap string c_simple)
                 ⊆ example_format_ctypes).
  { apply map_singleton_subseteq_l. vm_compute. reflexivity. }
  assert (H : to_ctypes example_runtime {[ "b" := c_byte ]} (Sequence "s"
      (SNInt8 "x") 2)
              = Ok (CArray (CSimple c_byte) 2)).
  { vm_compute. reflexivity. }
  split; [exact Hsub |]. split; [exact H |].
  exact (to_ctypes_table_mono example_runtime _ example_format_ctypes
           _ _ Hsub H).
Defined.

Lemma to_ctypes_Ok_compilable_witness :
  to_ctypes example_runtime example_format_ctypes (Array_C "foo" SNInt8 3)
  = Ok (CStructure "Array_C"
          [("data", CPointer (CSimple c_byte));
           ("shape", CArray (CSimple c_ubyte) 3)]) /\
  compilable example_format_ctypes (Array_C "foo" SNInt8 3) = true.
Proof.
  assert (H : to_ctypes example_runtime example_format_ctypes
                (Array_C "foo" SNInt8 3)
              = Ok (CStructure "Array_C"
                      [("data", CPointer (CSimple c_byte));
                       ("shape", CArray (CSimple c_ubyte) 3)]))
    by (vm_compute; reflexivity).
  split; [exact H |].
  exact (to_ctypes_Ok_compilable example_runtime example_format_ctypes
           _ _ H).
Defined.

(** ** Where the exceptions of [to_ctypes] come from *)

Lemma class_refused_mono (rt : Runtime)
      (format_ctypes : gmap string c_simple) (f : runtime_failure)
      (l l' : list LLType) :
  (forall x, x ∈ l -> x ∈ l') ->
  class_refused rt format_ctypes f l -> class_refused rt format_ctypes f l'.
Proof.
  intros Hsub (n & fs & ms & H1 & H2 & H3). exists n, fs, ms. auto.
Qed.

Lemma raise_origin_mono (rt : Runtime)
      (format_ctypes : gmap string c_simple) (e : exn)
      (l l' : list LLType) :
  (forall x, x ∈ l -> x ∈ l') ->
  raise_origin rt format_ctypes e l -> raise_origin rt format_ctypes e l'.
Proof.
  intros Hsub.
  destruct e as [s | s | s | key | attr | | | |]; simpl; try done;
    eauto using class_refused_mono.
  - intros [H1 H2]. auto.
  - intros [H1 (n & en & H2)]. eauto.
  - intros [[H1 (n & fs & f & H2 & H3 & H4)] | H].
    + left. split; [done |]. exists n, fs, f. auto.
    + right. eauto using class_refused_mono.
  - intros [(n & ty & len & H1 & H2) | [(n & fs & H1 & H2) | H]].
    + left. eauto 6.
    + right. left. eauto.
    + right. right. eauto using class_refused_mono.
  - intros [(n & ty & len & H1 & H2) | H].
    + left. exists n, ty, len. auto.
    + right. eauto using class_refused_mono.
Qed.

Lemma reachable_self (t : LLType) : t ∈ reachable t.
Proof. destruct t; simpl; apply elem_of_cons; by left. Qed.

Lemma reachable_Struct_field (n : string) (fs : list LLType)
      (f x : LLType) :
  f ∈ fs -> x ∈ reachable f -> x ∈ reachable (Struct n fs).
Proof.
  intros Hf Hx. simpl. apply elem_of_cons. right.
  apply list_elem_of_In, in_flat_map. exists f.
  split; by apply list_elem_of_In.
Qed.

Lemma name_Raise_nameless (t : LLType) (e : exn) :
  name t = Raise e -> nameless t = true.
Proof.
  intros H. destruct (nameless t) eqn:Hn; [reflexivity |].
  destruct (nameless_false_name t Hn) as (n & Hn'). congruence.
Qed.

(** The origin of a class statement's refusal. *)
Lemma runtime_exn_origin (rt : Runtime)
      (format_ctypes : gmap string c_simple) (f : runtime_failure)
      (among : list LLType) :
  class_refused rt format_ctypes f among ->
  raise_origin rt format_ctypes (runtime_exn f) among.
Proof. destruct f; simpl; auto. Qed.

Lemma to_ctypes_Raise_origin (rt : Runtime)
      (format_ctypes : gmap string c_simple)
      (t : LLType) (e : exn) :
  to_ctypes rt format_ctypes t = Raise e ->
  raise_origin rt format_ctypes e (reachable t).
Proof.
  revert e. induction t as
    [n fs IH | n en f | n idx _ | n tag options _ _ | options _
    | ty IH | n ty len IH | n ptr len _ _ | n term] using LLType_nested_ind;
    intros e H;
    try (simpl in H; injection H as <-;
         split; [reflexivity | apply reachable_self]).
  - destruct (fields_comprehension (to_ctypes rt format_ctypes) fs)
      as [ms | e'] eqn:Hms.
    + rewrite (Struct_to_ctypes_after_comprehension _ _ n fs ms Hms) in H.
      destruct (Structure_class rt ms) as [f |] eqn:Hc.
      * injection H as <-. apply runtime_exn_origin.
        exists n, fs, ms. split; [apply reachable_self | done].
      * destruct (has_nul n) eqn:Hn; [| discriminate H].
        injection H as <-. right. left. exists n, fs.
        split; [apply reachable_self | done].
    + simpl in H. rewrite Hms in H. simpl in H. injection H as <-.
      apply fields_comprehension_Raise_inv in Hms as (f & Hin & [H | H]).
      * pose proof (name_Raise_nameless f e' H) as Hnl.
        apply name_Raise_inv in H as ->. left. split; [reflexivity |].
        exists n, fs, f. split; [apply reachable_self | done].
      * apply (raise_origin_mono _ _ _ (reachable f)).
        -- intros x. by apply reachable_Struct_field.
        -- rewrite Forall_forall in IH. by apply IH.
  - simpl in H. unfold format_ctypes_getitem in H.
    destruct (format_ctypes !! f) eqn:Hf; [discriminate H |].
    injection H as <-. split; [exact Hf |].
    exists n, en. apply reachable_self.
  - simpl in H.
    apply bind_Raise_inv in H as [H | (c & _ & H)]; [| discriminate H].
    apply (raise_origin_mono _ _ _ (reachable ty)); [| by apply IH].
    intros x Hx. simpl. apply elem_of_cons. by right.
  - simpl in H. apply bind_Raise_inv in H as [H | (c & Hc & H)].
    + apply (raise_origin_mono _ _ _ (reachable ty)); [| by apply IH].
      intros x Hx. simpl. apply elem_of_cons. by right.
    + apply array_of_Raise_inv in H as [[-> H] | [-> H]].
      * left. exists n, ty, len. split; [apply reachable_self |].
        destruct H as [H | [H | H]]; eauto.
      * left. exists n, ty, len. split; [apply reachable_self | lia].
Qed.

(** A [NoCtypeMapping] out of [to_ctypes] carries the descriptor that
    has no mapping: one of a class that does not override [to_ctypes],
    found in the tree that was compiled. *)
Theorem to_ctypes_NoCtypeMapping_origin
        (rt : Runtime)
      (format_ctypes : gmap string c_simple) (t self : LLType) :
  to_ctypes rt format_ctypes t = Raise (NoCtypeMapping self) ->
  inherits_to_ctypes self = true /\ self ∈ reachable t.
Proof. intros H. exact (to_ctypes_Raise_origin _ _ _ _ H). Qed.

(** A [KeyError] out of [to_ctypes] carries a format code that is absent
    from the table and is the code of a [Field] of the tree. *)
Theorem to_ctypes_KeyError_origin
        (rt : Runtime)
      (format_ctypes : gmap string c_simple) (t : LLType) (key : string) :
  to_ctypes rt format_ctypes t = Raise (KeyError key) ->
  format_ctypes !! key = None /\
  exists n en, Field n en key ∈ reachable t.
Proof. intros H. exact (to_ctypes_Raise_origin _ _ _ _ H). Qed.


(** An [AttributeError] out of [to_ctypes] is the one of [field.name],
    and the tree holds a [Struct] with a nameless field, or it comes
    from the class statement of a [Struct] of the tree, refused by
    ctypes. *)
Theorem to_ctypes_AttributeError_origin (rt : Runtime)
        (format_ctypes : gmap string c_simple) (t : LLType) (attr : string) :
  to_ctypes rt format_ctypes t = Raise (AttributeError attr) ->
  (attr = "name" /\
   exists n fs f,
     Struct n fs ∈ reachable t /\ f ∈ fs /\ nameless f = true) \/
  class_refused rt format_ctypes (RAttributeError attr) (reachable t).
Proof. intros H. exact (to_ctypes_Raise_origin _ _ _ _ H). Qed.

Lemma to_ctypes_NoCtypeMapping_origin_witness :
  to_ctypes example_runtime example_format_ctypes
    (Struct "s" [UNInt8 "a"; Pointer (EnumObj "e" (Byte "e"))])
  = Raise (NoCtypeMapping (EnumObj "e" (Byte "e"))) /\
  inherits_to_ctypes (EnumObj "e" (Byte "e")) = true /\
  EnumObj "e" (Byte "e") ∈ reachable (Struct "s" [UNInt8 "a"; Pointer (EnumObj
      "e" (Byte "e"))]).
Proof.
  assert (H : to_ctypes example_runtime example_format_ctypes
                (Struct "s" [UNInt8 "a"; Pointer (EnumObj "e" (Byte "e"))])
              = Raise (NoCtypeMapping (EnumObj "e" (Byte "e"))))
    by (vm_compute; reflexivity).
  split; [exact H |].
  exact (to_ctypes_NoCtypeMapping_origin example_runtime example_format_ctypes
      _ _ H).
Defined.

Lemma to_ctypes_KeyError_origin_witness :
  to_ctypes example_runtime example_format_ctypes
    (Struct "s" [UNInt8 "a"; Sequence "v" (Field "z" "<" "Z") 2])
  = Raise (KeyError "Z") /\
  example_format_ctypes !! "Z" = None /\
  exists n en,
    Field n en "Z"
    ∈ reachable (Struct "s" [UNInt8 "a"; Sequence "v" (Field "z" "<" "Z") 2]).
Proof.
  assert (H : to_ctypes example_runtime example_format_ctypes
                (Struct "s" [UNInt8 "a"; Sequence "v" (Field "z" "<" "Z") 2])
              = Raise (KeyError "Z"))
    by (vm_compute; reflexivity).
  split; [exact H |].
  exact (to_ctypes_KeyError_origin example_runtime example_format_ctypes _ _ H).
Defined.


Lemma to_ctypes_AttributeError_origin_witness :
  to_ctypes example_runtime example_format_ctypes
    (Pointer (Struct "s" [Vector 2 [UNInt8 "x"]]))
  = Raise (AttributeError "name") /\
  (("name" = "name" /\
    exists n fs f,
      Struct n fs ∈ reachable (Pointer (Struct "s" [Vector 2 [UNInt8 "x"]]))
      /\ f ∈ fs /\ nameless f = true) \/
   class_refused example_runtime example_format_ctypes
     (RAttributeError "name")
     (reachable (Pointer (Struct "s" [Vector 2 [UNInt8 "x"]])))).
Proof.
  assert (H : to_ctypes example_runtime example_format_ctypes
                (Pointer (Struct "s" [Vector 2 [UNInt8 "x"]]))
              = Raise (AttributeError "name"))
    by (vm_compute; reflexivity).
  split; [exact H |].
  exact (to_ctypes_AttributeError_origin example_runtime
           example_format_ctypes _ _ H).
Defined.

(** ** What every compiled layout satisfies *)

Section LayoutInvariant.

Variable rt : Runtime.
Variable format_ctypes : gmap string c_simple.
Variable P : ctype -> Prop.

Hypothesis P_simple : forall f s,
    format_ctypes !! f = Some s -> P (CSimple s).
Hypothesis P_pointer : forall c, P c -> P (CPointer c).
Hypothesis P_array : forall c len, P c -> 0 <= len -> P (CArray c len).
Hypothesis P_structure : forall n members,
    Forall (fun m => P (snd m)) members -> P (CStructure n members).

(** A property of layouts that holds of the table's entries and is
    preserved by pointers, non-negative arrays and structures holds of
    whatever [to_ctypes] returns. *)
Lemma to_ctypes_Ok_invariant (t : LLType) (c : ctype) :
  to_ctypes rt format_ctypes t = Ok c -> P c.
Proof.
  revert c. induction t as
    [n fs IH | n en f | n idx _ | n tag options _ _ | options _
    | ty IH | n ty len IH | n ptr len _ _ | n term] using LLType_nested_ind;
    intros c H; try (simpl in H; discriminate H).
  - apply Struct_to_ctypes_Ok_inv in H as (ms & Hms & _ & _ & ->).
    apply P_structure. apply fields_comprehension_Ok_inv in Hms.
    induction Hms as [| f m fs ms (_ & Hc) _ IHms]; [constructor |].
    inversion IH as [| ? ? Hf Hfs]; subst.
    constructor; [by apply Hf | by apply IHms].
  - simpl in H. unfold format_ctypes_getitem in H.
    destruct (format_ctypes !! f) as [s |] eqn:Hf; [| discriminate H].
    injection H as <-. by apply (P_simple f).
  - simpl in H. apply bind_Ok_inv in H as (c' & Hc' & H).
    injection H as <-. by apply P_pointer, IH.
  - simpl in H. apply bind_Ok_inv in H as (c' & Hc' & H).
    apply array_of_Ok_inv in H as (Hlen & _ & ->).
    apply P_array; [by apply IH | lia].
Qed.

End LayoutInvariant.

(** No array of negative length appears anywhere in a layout that
    [to_ctypes] returns. *)
Theorem to_ctypes_array_lengths_ok (rt : Runtime)
      (format_ctypes : gmap string c_simple)
        (t : LLType) (c : ctype) :
  to_ctypes rt format_ctypes t = Ok c -> array_lengths_ok c = true.
Proof.
  apply (to_ctypes_Ok_invariant rt format_ctypes
           (fun c => array_lengths_ok c = true)).
  - reflexivity.
  - intros c' H. exact H.
  - intros c' len H Hlen. simpl. rewrite H, andb_true_r. by apply Z.leb_le.
  - intros n ms H. simpl.
    induction H as [| m ms Hm _ IH]; simpl; [reflexivity |].
    by rewrite Hm, IH.
Qed.

(** Every fundamental type of a layout that [to_ctypes] returns is an
    entry of the format table. *)
Theorem to_ctypes_simple_types_in_table
        (rt : Runtime)
      (format_ctypes : gmap string c_simple) (t : LLType) (c : ctype) :
  to_ctypes rt format_ctypes t = Ok c ->
  Forall (fun s => exists f, format_ctypes !! f = Some s) (simple_types c).
Proof.
  apply (to_ctypes_Ok_invariant rt format_ctypes
           (fun c => Forall (fun s => exists f, format_ctypes !! f = Some s)
                       (simple_types c))).
  - intros f s H. simpl. repeat constructor. eauto.
  - intros c' H. exact H.
  - intros c' len H _. exact H.
  - intros n ms H. simpl.
    induction H as [| m ms Hm _ IH]; simpl; [constructor |].
    apply Forall_app. by split.
Qed.

Lemma to_ctypes_array_lengths_ok_witness :
  to_ctypes example_runtime example_format_ctypes (Array_S "foo" SNInt8 0)
  = Ok (CStructure "Array_S"
          [ ("data", CPointer (CSimple c_byte));
            ("shape", CArray (CSimple c_ubyte) 0);
            ("stride", CArray (CSimple c_ubyte) 0) ]) /\
  array_lengths_ok
    (CStructure "Array_S"
       [ ("data", CPointer (CSimple c_byte));
         ("shape", CArray (CSimple c_ubyte) 0);
         ("stride", CArray (CSimple c_ubyte) 0) ]) = true.
Proof.
  assert (H : to_ctypes example_runtime example_format_ctypes (Array_S "foo"
      SNInt8 0)
              = Ok (CStructure "Array_S"
                      [ ("data", CPointer (CSimple c_byte));
                        ("shape", CArray (CSimple c_ubyte) 0);
                        ("stride", CArray (CSimple c_ubyte) 0) ]))
    by (vm_compute; reflexivity).
  split; [exact H |].
  exact (to_ctypes_array_lengths_ok example_runtime example_format_ctypes _ _
      H).
Defined.

Lemma to_ctypes_simple_types_in_table_witness :
  to_ctypes example_runtime example_format_ctypes
    (Struct "s" [LFloat64 "x"; Pointer (Bool "y")])
  = Ok (CStructure "s"
          [("x", CSimple c_double); ("y", CPointer (CSimple c_bool))]) /\
  Forall (fun s => exists f, example_format_ctypes !! f = Some s)
    (simple_types
       (CStructure "s"
          [("x", CSimple c_double); ("y", CPointer (CSimple c_bool))])).
Proof.
  assert (H : to_ctypes example_runtime example_format_ctypes
                (Struct "s" [LFloat64 "x"; Pointer (Bool "y")])
              = Ok (CStructure "s"
                      [("x", CSimple c_double);
                       ("y", CPointer (CSimple c_bool))]))
    by (vm_compute; reflexivity).
  split; [exact H |].
  exact (to_ctypes_simple_types_in_table example_runtime example_format_ctypes
      _ _ H).
Defined.

(** ** [Sequence.to_ctypes] and [Pointer.to_ctypes] *)


(** Pointers at any depth: [k] nested [Pointer]s compile to [k] nested
    pointer types over the pointee's layout, and pass on the pointee's
    exception unchanged. *)
Theorem Pointer_iter_to_ctypes (rt : Runtime)
      (format_ctypes : gmap string c_simple)
        (k : nat) (t : LLType) :
  to_ctypes rt format_ctypes (Nat.iter k Pointer t)
  = do c <- to_ctypes rt format_ctypes t; Ok (Nat.iter k CPointer c).
Proof.
  induction k as [| k IH]; simpl.
  - by destruct (to_ctypes rt format_ctypes t).
  - rewrite IH. by destruct (to_ctypes rt format_ctypes t).
Qed.

(** ** The array builders through [to_ctypes] *)

(** With an element constructor whose ["data"] field compiles, the code
    [B] in the table, an [nd] between zero and the largest [Py_ssize_t]
    whose array of cells is not too large, and member lists that ctypes
    accepts in the class statement, the three builders compile: a
    pointer member named like the element, then the [shape] array, and
    for [Array_S] the [stride] array, of [nd] cells each. *)
Theorem Array_builders_to_ctypes (rt : Runtime)
        (format_ctypes : gmap string c_simple)
        (n : string) (ty : string -> LLType) (nd : Z)
        (dn : string) (c : ctype) (cB : c_simple) :
  name (ty "data") = Ok dn ->
  to_ctypes rt format_ctypes (ty "data") = Ok c ->
  format_ctypes !! "B" = Some cB ->
  0 <= nd <= PY_SSIZE_T_MAX rt ->
  array_too_large rt (CSimple cB) nd = false ->
  Structure_class rt
    [(dn, CPointer c); ("shape", CArray (CSimple cB) nd)] = None ->
  Structure_class rt
    [(dn, CPointer c); ("shape", CArray (CSimple cB) nd);
     ("stride", CArray (CSimple cB) nd)] = None ->
  to_ctypes rt format_ctypes (Array_C n ty nd)
  = Ok (CStructure "Array_C"
          [(dn, CPointer c); ("shape", CArray (CSimple cB) nd)]) /\
  to_ctypes rt format_ctypes (Array_F n ty nd)
  = Ok (CStructure "Array_F"
          [(dn, CPointer c); ("shape", CArray (CSimple cB) nd)]) /\
  to_ctypes rt format_ctypes (Array_S n ty nd)
  = Ok (CStructure "Array_S"
          [(dn, CPointer c); ("shape", CArray (CSimple cB) nd);
           ("stride", CArray (CSimple cB) nd)]).
Proof.
  intros Hn Hc HB Hnd Hsize Hclass2 Hclass3.
  assert (Hshape : forall sn,
             to_ctypes rt format_ctypes (Sequence sn (UNInt8 EmptyString) nd)
             = Ok (CArray (CSimple cB) nd)).
  { intros sn. simpl. unfold format_ctypes_getitem. rewrite HB. simpl.
    by apply array_of_Ok. }
  assert (Hdata : to_ctypes rt format_ctypes (Pointer (ty "data"))
                  = Ok (CPointer c)).
  { simpl. by rewrite Hc. }
  unfold Array_C, Array_F, Array_S. repeat apply conj.
  - erewrite Struct_to_ctypes_after_comprehension.
    + by rewrite Hclass2.
    + cbn [fields_comprehension name]. by rewrite Hn, Hdata, Hshape.
  - erewrite Struct_to_ctypes_after_comprehension.
    + by rewrite Hclass2.
    + cbn [fields_comprehension name]. by rewrite Hn, Hdata, Hshape.
  - erewrite Struct_to_ctypes_after_comprehension.
    + by rewrite Hclass3.
    + cbn [fields_comprehension name].
      by rewrite Hn, Hdata, !Hshape.
Qed.


Lemma Array_builders_to_ctypes_witness :
  name (SNInt8 "data") = Ok "data" /\
  to_ctypes example_runtime example_format_ctypes (SNInt8 "data")
  = Ok (CSimple c_byte) /\
  example_format_ctypes !! "B" = Some c_ubyte /\
  0 <= 3 <= PY_SSIZE_T_MAX example_runtime /\
  array_too_large example_runtime (CSimple c_ubyte) 3 = false /\
  Structure_class example_runtime
    [("data", CPointer (CSimple c_byte));
     ("shape", CArray (CSimple c_ubyte) 3)] = None /\
  Structure_class example_runtime
    [("data", CPointer (CSimple c_byte));
     ("shape", CArray (CSimple c_ubyte) 3);
     ("stride", CArray (CSimple c_ubyte) 3)] = None /\
  to_ctypes example_runtime example_format_ctypes (Array_S "foo" SNInt8 3)
  = Ok (CStructure "Array_S"
          [("data", CPointer (CSimple c_byte));
           ("shape", CArray (CSimple c_ubyte) 3);
           ("stride", CArray (CSimple c_ubyte) 3)]).
Proof.
  assert (Hc : to_ctypes example_runtime example_format_ctypes
                 (SNInt8 "data")
               = Ok (CSimple c_byte)) by (vm_compute; reflexivity).
  assert (HB : example_format_ctypes !! "B" = Some c_ubyte)
    by (vm_compute; reflexivity).
  assert (Hnd : 0 <= 3 <= PY_SSIZE_T_MAX example_runtime)
    by (vm_compute; split; discriminate).
  assert (Hsize : array_too_large example_runtime (CSimple c_ubyte) 3
                  = false) by (vm_compute; reflexivity).
  split; [reflexivity |]. split; [exact Hc |].
  split; [exact HB |]. split; [exact Hnd |]. split; [exact Hsize |].
  split; [reflexivity |]. split; [reflexivity |].
  exact (proj2 (proj2
           (Array_builders_to_ctypes example_runtime example_format_ctypes
              "foo" SNInt8 3 "data" _ _ eq_refl Hc HB Hnd Hsize
              eq_refl eq_refl))).
Defined.


(** ** The whole family of field constructors *)

(** The 31 constructors have 31 different names and 31 different
    (endianness, format) pairs; each returns a [Field] that carries the
    name it was given, one of the three endianness characters and a
    one-letter format code; the four aliases are constructors of this
    family. *)
Theorem field_constructors_regular :
  List.length field_constructors = 31%nat /\
  NoDup (map fst field_constructors) /\
  (forall arg : string -> string,
      NoDup (map (fun entry =>
                    endianness_format (snd entry (arg (fst entry))))
               field_constructors)) /\
  Forall (fun entry =>
            forall n, exists e f,
              snd entry n = Field n e f /\
              e ∈ [">"; "<"; "="] /\
              String.length f = 1%nat)
    field_constructors /\
  Forall (fun alias =>
            exists entry,
              entry ∈ field_constructors /\
              forall n, snd alias n = snd entry n)
    constructor_aliases.
Proof.
  split; [reflexivity |].
  split; [apply (bool_decide_unpack _); vm_compute; reflexivity |].
  split.
  { intros arg. cbn. apply (bool_decide_unpack _). vm_compute. reflexivity. }
  split.
  - unfold field_constructors, int_constructors, float_bool_constructors.
    simpl. repeat constructor;
      intros n; eexists _, _; (split; [reflexivity |]);
      (split; [| reflexivity]); set_solver.
  - unfold constructor_aliases. repeat constructor.
    + exists ("UBInt8", UBInt8). split; [| done].
      unfold field_constructors, int_constructors. set_solver.
    + exists ("SLInt8", SLInt8). split; [| done].
      unfold field_constructors, int_constructors. set_solver.
    + exists ("ULInt8", ULInt8). split; [| done].
      unfold field_constructors, int_constructors. set_solver.
    + exists ("SLInt8", SLInt8). split; [| done].
      unfold field_constructors, int_constructors. set_solver.
Qed.

(** The names tell what the integer constructors build: the constructor
    named for a signedness, a byte order and a width returns the [Field]
    with that byte order's endianness character and the format code of
    that signedness and width. *)
Theorem int_constructors_match_names (s : signedness) (e : byteorder)
        (w : bitwidth) :
  exists ctor,
    constructors_named (constructor_name s e w) = [ctor] /\
    forall n, ctor n = Field n (endianness_char e) (format_code s w).
Proof.
  destruct s, e, w; eexists;
    (split; [vm_compute; reflexivity | intros n; reflexivity]).
Qed.

(** ** [Enum] *)

(** A call of [Enum] with a keyword called [self] or [name] raises
    [TypeError].  Any other call returns an [Enum] with the given name
    and an [idx] field, the unsigned big-endian byte of the same name,
    whatever the keywords; that [idx] compiles when the table has the
    code [B], the [Enum] itself never does. *)
Theorem Enum_idx (rt : Runtime) (format_ctypes : gmap string c_simple)
        (n : string) (kw : gmap string value) (cB : c_simple) :
  format_ctypes !! "B" = Some cB ->
  (is_Some (kw !! "self") \/ is_Some (kw !! "name") ->
   Enum n kw = Raise TypeError) /\
  (kw !! "self" = None -> kw !! "name" = None ->
   exists idx,
     Enum n kw = Ok (EnumObj n idx) /\
     name idx = Ok n /\
     endianness_format idx = Some (">", "B") /\
     to_ctypes rt format_ctypes idx = Ok (CSimple cB) /\
     to_ctypes rt format_ctypes (EnumObj n idx)
     = Raise (NoCtypeMapping (EnumObj n idx))).
Proof.
  intros HB. unfold Enum. split.
  - intros H. by rewrite bool_decide_eq_true_2.
  - intros Hself Hname. exists (Field n ">" "B").
    rewrite bool_decide_eq_false_2.
    + repeat split. simpl. unfold format_ctypes_getitem. by rewrite HB.
    + rewrite Hself, Hname. intros [[x H] | [x H]]; discriminate H.
Qed.

Lemma Enum_idx_witness :
  example_format_ctypes !! "B" = Some c_ubyte /\
  Enum "color" {[ "name" := VStr "hue" ]} = Raise TypeError /\
  exists idx,
    Enum "color" {[ "red" := VInt 0 ]} = Ok (EnumObj "color" idx) /\
    name idx = Ok "color" /\
    endianness_format idx = Some (">", "B") /\
    to_ctypes example_runtime example_format_ctypes idx
    = Ok (CSimple c_ubyte) /\
    to_ctypes example_runtime example_format_ctypes (EnumObj "color" idx)
    = Raise (NoCtypeMapping (EnumObj "color" idx)).
Proof.
  assert (HB : example_format_ctypes !! "B" = Some c_ubyte)
    by (vm_compute; reflexivity).
  split; [exact HB |]. split.
  - refine (proj1 (Enum_idx example_runtime example_format_ctypes
                     "color" {[ "name" := VStr "hue" ]} c_ubyte HB) _).
    right. exists (VStr "hue"). vm_compute. reflexivity.
  - refine (proj2 (Enum_idx example_runtime example_format_ctypes
                     "color" {[ "red" := VInt 0 ]} c_ubyte HB) _ _).
    + vm_compute. reflexivity.
    + vm_compute. reflexivity.
Defined.

(** ** [__repr__] *)

(** [repr] of a descriptor is its class name and the [repr] of its name
    in parentheses, where a [Pointer] shows the name of what it points
    to; on a [Vector], and on a pointer to one, it raises the
    [AttributeError] of the missing name. *)
Theorem Type_repr_cases (repr_str : string -> string) (t : LLType) :
  if nameless t
  then Type_repr repr_str t = Raise (AttributeError "name")
  else exists n,
      name t = Ok n /\
      Type_repr repr_str t
      = Ok (class_name t ++ "(" ++ repr_str n ++ ")").
Proof.
  unfold Type_repr. destruct (nameless t) eqn:Hn.
  - by rewrite (nameless_true_name t Hn).
  - destruct (nameless_false_name t Hn) as (n & H).
    exists n. by rewrite H.
Qed.

(** ** [to_dtype] and [to_llvm] *)

(** Neither [to_dtype] nor [to_llvm] returns on any descriptor. *)
Theorem to_dtype_to_llvm_never_return (t : LLType) :
  (forall d, to_dtype t <> Ok d) /\ (forall u, to_llvm t <> Ok u).
Proof.
  split; [| discriminate].
  intros d. destruct t; discriminate.
Qed.

(** ** Witnesses on the demo descriptors *)

Lemma to_dtype_other_variants_witness :
  endianness_format (Array_C "foo" SNInt8 3) = None /\
  to_dtype (Array_C "foo" SNInt8 3)
  = Raise (NoDtypeMapping (Array_C "foo" SNInt8 3)).
Proof.
  split; [reflexivity |].
  exact (to_dtype_other_variants (Array_C "foo" SNInt8 3) eq_refl).
Defined.

(** ** The example runtime on the edges of ctypes *)

Example sizeof_padded_structure :
  sizeof (CStructure "s"
            [("a", CSimple c_ubyte); ("b", CSimple c_double);
             ("c", CSimple c_ubyte)]) = 24 /\
  sizeof (CStructure "s"
            [("data", CPointer (CSimple c_byte));
             ("shape", CArray (CSimple c_ubyte) 3)]) = 16.
Proof. split; reflexivity. Qed.

Example Struct_name_with_NUL :
  to_ctypes example_runtime example_format_ctypes
    (Struct ("a" ++ String Ascii.zero "b") [])
  = Raise ValueError.
Proof. vm_compute. reflexivity. Qed.

Example Sequence_length_beyond_ssize_t :
  to_ctypes example_runtime example_format_ctypes
    (Sequence "s" (UNInt8 "x") (2 ^ 63))
  = Raise OverflowError /\
  to_ctypes example_runtime example_format_ctypes
    (Sequence "s" (UNInt8 "x") (- 2 ^ 63 - 1))
  = Raise OverflowError /\
  to_ctypes example_runtime example_format_ctypes
    (Sequence "s" (UNInt8 "x") (- 2 ^ 63))
  = Raise ValueError /\
  to_ctypes example_runtime example_format_ctypes
    (Sequence "s" (UNInt8 "x") (2 ^ 63 - 1))
  = Ok (CArray (CSimple c_ubyte) (2 ^ 63 - 1)).
Proof. repeat split; vm_compute; reflexivity. Qed.

Example Sequence_array_too_large :
  to_ctypes example_runtime example_format_ctypes
    (Sequence "s" (UNInt16 "x") (2 ^ 62))
  = Raise OverflowError /\
  to_ctypes example_runtime example_format_ctypes
    (Sequence "s" (UNInt16 "x") (2 ^ 62 - 1))
  = Ok (CArray (CSimple c_ushort) (2 ^ 62 - 1)).
Proof. split; vm_compute; reflexivity. Qed.

Example Struct_members_refused_in_order :
  to_ctypes example_runtime example_format_ctypes
    (Struct "s" [UNInt8 "_anonymous_"; UNInt8 "__mro__"])
  = Raise (AttributeError "__mro__") /\
  to_ctypes example_runtime example_format_ctypes
    (Struct "s" [UNInt8 "_anonymous_"; UNInt8 "x"])
  = Raise TypeError /\
  to_ctypes example_runtime example_format_ctypes
    (Struct (String Ascii.zero EmptyString) [UNInt8 "__dict__"])
  = Raise (AttributeError "__dict__").
Proof. repeat split; vm_compute; reflexivity. Qed.
